(** * Strategy export/import script (export.js): validation and store pipeline

    A shallow embedding of [src/export.js].  The script validates "strategy"
    objects read from [localStorage] or from a user-selected file and moves
    their serialized form between the store and downloadable files.

    Modelling choices.
    - Deserialized JavaScript values are the inductive [JValue]; a JS object is
      a finite map from property names to values, a JS number is an IEEE-754
      value ([spec_float]).  [JSON.parse] never yields [JUndefined]; it is the
      value of a property that is not there.
    - A JavaScript call either returns or throws: [Completion].
    - The browser (store, triggered downloads, clock) is an explicit [World]
      threaded through the manager's operations by the monad [JS].
    - [JSON.parse], [JSON.stringify], the wording of the engine's [TypeError]
      and the [StrategyConverter] codec are not defined by the script; they are
      taken as interfaces ([Engine], [StrategyConverter]).
    - [console.warn]/[console.error] diagnostics do not influence control flow
      or results and are left out. *)

From Stdlib Require Import Floats.SpecFloat.
From stdpp Require Import gmap strings list fin_maps.

Set Warnings "-register-all".
Local Open Scope string_scope.

(** ** JavaScript values *)

Inductive JValue : Type :=
  | JUndefined
  | JNull
  | JBool (b : bool)
  | JNum (n : spec_float)
  | JStr (s : string)
  | JArr (items : list JValue)
  | JObj (fields : gmap string JValue).

(** ToBoolean on numbers: [0], [-0] and [NaN] are falsy. *)
Definition number_truthy (n : spec_float) : bool :=
  match n with
  | S754_zero _ | S754_nan => false
  | _ => true
  end.

(** ToBoolean, as applied by [!x] and [if (x)]. *)
Definition truthy (x : JValue) : bool :=
  match x with
  | JUndefined => false
  | JNull => false
  | JBool b => b
  | JNum n => number_truthy n
  | JStr s => bool_decide (s ≠ "")
  | JArr _ => true
  | JObj _ => true
  end.

(** The [typeof] operator. *)
Definition typeof (x : JValue) : string :=
  match x with
  | JUndefined => "undefined"
  | JNull => "object"
  | JBool _ => "boolean"
  | JNum _ => "number"
  | JStr _ => "string"
  | JArr _ => "object"
  | JObj _ => "object"
  end.

(** [x === undefined] *)
Definition is_undefined (x : JValue) : bool :=
  match x with JUndefined => true | _ => false end.

(** [Array.isArray(x)] *)
Definition isArray (x : JValue) : bool :=
  match x with JArr _ => true | _ => false end.

(** [list.includes(x)] for an array literal of strings: SameValueZero equates
    [x] with an entry only when [x] is that very string. *)
Definition includes (l : list string) (x : JValue) : bool :=
  match x with
  | JStr s => bool_decide (s ∈ l)
  | _ => false
  end.

(** ** Completions: return or throw *)

Record Error := mkError { name : string; message : string }.

Inductive Completion (A : Type) : Type :=
  | Normal (a : A)
  | Throw (e : Error).
Arguments Normal {A} a.
Arguments Throw {A} e.

#[global] Instance Completion_ret : MRet Completion := λ A a, Normal a.
#[global] Instance Completion_bind : MBind Completion := λ A B f m,
  match m with
  | Normal a => f a
  | Throw e => Throw e
  end.
#[global] Instance Completion_fmap : FMap Completion := λ A B f m,
  match m with
  | Normal a => Normal (f a)
  | Throw e => Throw e
  end.

(** [a || b] on computations: [b] is evaluated only when [a] is false. *)
Definition orM (a b : Completion bool) : Completion bool :=
  x ← a; if x : bool then Normal true else b.
(** [a && b] on computations: [b] is evaluated only when [a] is true. *)
Definition andM (a b : Completion bool) : Completion bool :=
  x ← a; if x : bool then b else Normal false.
Infix "|||" := orM (at level 50, left associativity).
Infix "&&&" := andM (at level 40, left associativity).

(** [Array.prototype.every]: stops at the first element the callback rejects;
    an exception of the callback propagates. *)
Fixpoint every {A} (callback : A → Completion bool) (l : list A)
  : Completion bool :=
  match l with
  | [] => Normal true
  | x :: l' =>
      b ← callback x;
      if b : bool then every callback l' else Normal false
  end.

(** ** What the script takes from its environment *)

(** The JavaScript engine: the JSON codec and the [TypeError] raised when a
    property of [null] or [undefined] is read.  The empty text is not JSON. *)
Class Engine := {
  JSON_parse : string → Completion JValue;
  JSON_stringify : JValue → string;
  nullishPropertyError : JValue → string → Error;
  JSON_parse_empty : ∃ e, JSON_parse "" = Throw e
}.

(** The shorthand codec, referenced by the script but defined elsewhere. *)
Class StrategyConverter := {
  toShorthand : JValue → Completion JValue;
  fromShorthand : JValue → Completion JValue
}.

(** [v.p] for the property names the script reads ([id], [type], [on], [do],
    [value], [betType], [profitType], [label], [blocks], [isDefault]): none of
    them exists on a primitive, on an array or on [Object.prototype], so only
    an object's own field can answer; reading from [null] or [undefined]
    throws. *)
Definition get `{Engine} (v : JValue) (p : string) : Completion JValue :=
  match v with
  | JUndefined | JNull => Throw (nullishPropertyError v p)
  | JObj fields => Normal (default JUndefined (fields !! p))
  | _ => Normal JUndefined
  end.

(** ** StrategyValidator *)

Definition validConditionTypes : list string :=
  [ "every"; "everyStreakOf"; "streakGreaterThan"; "streakLowerThan";
    "firstStreakOf"; "greaterThan"; "greaterThanOrEqualTo"; "lessThan";
    "lessThanOrEqualTo" ].

Definition validBetTypes : list string := [ "bet"; "win"; "lose" ].
Definition validProfitTypes : list string := [ "profit"; "loss"; "balance" ].

Definition validActionTypes : list string :=
  [ "setAmount"; "setWinChance"; "increaseWinChanceBy"; "decreaseWinChanceBy";
    "increaseByPercentage"; "decreaseByPercentage"; "addToAmount";
    "subtractFromAmount"; "addToWinChance"; "subtractFromWinChance";
    "switchOverUnder"; "resetAmount"; "resetWinChance"; "stop" ].

Section Validator.
Context `{Engine}.

Definition validateCondition (condition : JValue) : Completion bool :=
  missing ← (negb ∘ truthy <$> get condition "type")
            ||| (is_undefined <$> get condition "value")
            ||| (negb ∘ truthy <$> get condition "betType")
            ||| (negb ∘ truthy <$> get condition "profitType");
  if missing : bool then Normal false else
  known ← includes validConditionTypes <$> get condition "type";
  if negb known then Normal false else
  known ← includes validBetTypes <$> get condition "betType";
  if negb known then Normal false else
  known ← includes validProfitTypes <$> get condition "profitType";
  if negb known then Normal false else
  ty ← typeof <$> get condition "value";
  if bool_decide (ty ≠ "number") then Normal false else
  Normal true.

Definition validateAction (action : JValue) : Completion bool :=
  missing ← (negb ∘ truthy <$> get action "type")
            ||| (is_undefined <$> get action "value");
  if missing : bool then Normal false else
  known ← includes validActionTypes <$> get action "type";
  if negb known then Normal false else
  ty ← typeof <$> get action "value";
  if bool_decide (ty ≠ "number") then Normal false else
  Normal true.

Definition validateBlock (block : JValue) : Completion bool :=
  missing ← (negb ∘ truthy <$> get block "id")
            ||| (negb ∘ truthy <$> get block "type")
            ||| (negb ∘ truthy <$> get block "on")
            ||| (negb ∘ truthy <$> get block "do");
  if missing : bool then Normal false else
  known ← includes ["bets"; "profit"] <$> get block "type";
  if negb known then Normal false else
  (get block "on" ≫= validateCondition)
  &&& (get block "do" ≫= validateAction).

(** ** StrategyManager.validateStrategy *)

Definition validateStrategy (strategy : JValue) : Completion bool :=
  if negb (truthy strategy) || bool_decide (typeof strategy ≠ "object")
  then Normal false else
  missing ← (negb ∘ truthy <$> get strategy "label")
            ||| (negb ∘ isArray <$> get strategy "blocks");
  if missing : bool then Normal false else
  ty ← typeof <$> get strategy "isDefault";
  if bool_decide (ty ≠ "boolean") then Normal false else
  blocks ← get strategy "blocks";
  match blocks with
  | JArr items => every validateBlock items
  | _ => (* not reached: [Array.isArray] was checked above *)
      Throw (mkError "TypeError" "strategy.blocks.every is not a function")
  end.

End Validator.

(** ** The browser *)

(** A download triggered through a temporary anchor element: the text put in
    the [Blob], the blob's MIME type and the anchor's [download] file name. *)
Record Download := mkDownload {
  blobText : string;
  blobType : string;
  download : string
}.

(** [localStorage], the downloads triggered so far, and what
    [new Date().toISOString()] answers. *)
Record World := mkWorld {
  localStorage : gmap string string;
  downloads : list Download;
  isoNow : string
}.

(** Computations of the manager: they may read and change the world, and
    return or throw. *)
Definition JS (A : Type) : Type := World → Completion A * World.

#[global] Instance JS_ret : MRet JS := λ A a w, (Normal a, w).
#[global] Instance JS_bind : MBind JS := λ A B f m w,
  match m w with
  | (Normal a, w') => f a w'
  | (Throw e, w') => (Throw e, w')
  end.

Definition lift {A} (c : Completion A) : JS A := λ w, (c, w).
Definition throw {A} (e : Error) : JS A := λ w, (Throw e, w).

(** [try { body } catch (error) { handler }] *)
Definition try_catch {A} (body : JS A) (handler : Error → JS A) : JS A :=
  λ w, match body w with
       | (Normal a, w') => (Normal a, w')
       | (Throw error, w') => handler error w'
       end.

(** [localStorage.getItem(key)]: [None] is [null]. *)
Definition getItem (key : string) : JS (option string) :=
  λ w, (Normal (localStorage w !! key), w).

(** [localStorage.setItem(key, value)] *)
Definition setItem (key value : string) : JS unit :=
  λ w, (Normal (), mkWorld (<[key := value]> (localStorage w))
                           (downloads w) (isoNow w)).

(** [new Date().toISOString()] *)
Definition toISOString_now : JS string := λ w, (Normal (isoNow w), w).

(** Blob, object URL, anchor, click and cleanup: the net effect is one
    download. *)
Definition triggerDownload (exportData fileName : string) : JS unit :=
  λ w, (Normal (), mkWorld (localStorage w)
                           (downloads w ++ [mkDownload exportData "application/json" fileName])
                           (isoNow w)).

(** [s.split(sep)[0]] for a one-character separator: the text before its
    first occurrence, or all of [s]. *)
Fixpoint split_head (sep : Ascii.ascii) (s : string) : string :=
  match s with
  | EmptyString => EmptyString
  | String c s' => if bool_decide (c = sep) then EmptyString
                   else String c (split_head sep s')
  end.

(** The separator of date and time in an ISO timestamp. *)
Definition letter_T : Ascii.ascii := Ascii.ascii_of_nat 84.

(** [!s] for a string or [null]. *)
Definition absent (s : option string) : bool :=
  match s with
  | None => true
  | Some s => bool_decide (s = "")
  end.

(** ** StrategyManager *)

Definition STRATEGY_KEY : string := "strategies_saved".

(** A parameter declared as [format = 'original']. *)
Definition format_parameter (argument : option string) : string :=
  default "original" argument.

Section Manager.
Context `{Engine} `{StrategyConverter}.

(** [!Array.isArray(parsed) || !parsed.every(this.validateStrategy)] *)
Definition invalid_format (parsed : JValue) : Completion bool :=
  match parsed with
  | JArr items => negb <$> every validateStrategy items
  | _ => Normal true
  end.

(** Returns the exported text, or [None] for [null]. *)
Definition exportStrategies (format : string) : JS (option string) :=
  try_catch
    (strategies ← getItem STRATEGY_KEY;
     if absent strategies then mret None else
     let strategies := default "" strategies in
     parsedStrategies ← lift (JSON_parse strategies);
     invalid ← lift (invalid_format parsedStrategies);
     if invalid : bool
     then throw (mkError "Error" "Invalid strategy format detected") else
     exportData ←
       (if bool_decide (format = "shorthand")
        then lift (JSON_stringify <$> toShorthand parsedStrategies)
        else mret strategies);
     iso ← toISOString_now;
     triggerDownload exportData
       ("strategies_" +:+ format +:+ "_" +:+ split_head letter_T iso +:+ ".json");;
     mret (Some exportData))
    (λ error, throw error).

(** Returns the strategies, or [None] for [null]. *)
Definition getStrategies (format : string) : JS (option JValue) :=
  try_catch
    (strategies ← getItem STRATEGY_KEY;
     if absent strategies then mret None else
     let strategies := default "" strategies in
     parsedStrategies ← lift (JSON_parse strategies);
     invalid ← lift (invalid_format parsedStrategies);
     if invalid : bool
     then throw (mkError "Error"
       "Invalid strategy format detected in localStorage, check you are on the right website")
     else
     if bool_decide (format = "shorthand")
     then lift (Some <$> toShorthand parsedStrategies)
     else mret (Some parsedStrategies))
    (λ error, throw error).

(** *** importStrategies *)

(** What [reader.readAsText(file)] ends in: [onload] with the text, or
    [onerror]. *)
Inductive ReadOutcome := Loaded (result : string) | ReadError.

Record File := mkFile { fileName : string; readAsText : ReadOutcome }.
Record FileInput := mkFileInput { files : list File }.

(** How the returned promise settles. *)
Inductive Settled := Resolved (value : JValue) | Rejected (reason : Error).

(** The [try] block of the [onload] handler, up to the value handed to
    [resolve]. *)
Definition onload_try (content format : string) : JS JValue :=
  parsedContent ← lift (JSON_parse content);
  parsedContent ←
    (if bool_decide (format = "shorthand")
     then lift (fromShorthand parsedContent)
     else mret parsedContent);
  invalid ← lift (invalid_format parsedContent);
  if invalid : bool
  then throw (mkError "Error" "Invalid strategy format") else
  setItem STRATEGY_KEY (JSON_stringify parsedContent);;
  mret parsedContent.

Definition importStrategies (fileInput : FileInput) (format : string)
  (w : World) : Settled * World :=
  match files fileInput !! 0%nat with
  | None => (Rejected (mkError "Error" "No file selected"), w)
  | Some file =>
      match readAsText file with
      | ReadError => (Rejected (mkError "Error" "Failed to read file"), w)
      | Loaded content =>
          match onload_try content format w with
          | (Normal parsedContent, w') => (Resolved parsedContent, w')
          | (Throw error, w') =>
              (Rejected (mkError "Error"
                 ("Invalid strategy file: " +:+ message error)), w')
          end
      end
  end.

(** *** The script's top level: [StrategyManager.exportStrategies();] *)
Definition script : JS (option string) :=
  exportStrategies (format_parameter None).

End Manager.

(** ** A test double of the environment

    Concrete engine, codec and inputs on which the operations can be run.
    [JSON_parse] knows a handful of texts, [JSON_stringify] answers with the
    text of the sample list, and the codec is the one the script actually
    finds: none is defined, so naming it is a [ReferenceError]. *)
Module Sample.

Definition quoted (s : string) : string :=
  String (Ascii.ascii_of_nat 34) s +:+ String (Ascii.ascii_of_nat 34) "".

Definition zero : spec_float := S754_zero false.

Definition condition : JValue :=
  JObj (<["type" := JStr "every"]> (<["value" := JNum zero]>
       (<["betType" := JStr "lose"]> (<["profitType" := JStr "profit"]> ∅)))).

Definition action : JValue :=
  JObj (<["type" := JStr "resetAmount"]> (<["value" := JNum zero]> ∅)).

(** A block whose [id] is the number 0 and whose other fields are valid. *)
Definition block_id0 : JValue :=
  JObj (<["id" := JNum zero]> (<["type" := JStr "bets"]>
       (<["on" := condition]> (<["do" := action]> ∅)))).

Definition block : JValue :=
  JObj (<["id" := JStr "b1"]> (<["type" := JStr "bets"]>
       (<["on" := condition]> (<["do" := action]> ∅)))).

Definition strategy (blocks : list JValue) : JValue :=
  JObj (<["label" := JStr "x"]> (<["isDefault" := JBool true]>
       (<["blocks" := JArr blocks]> ∅))).

(** The text of a list holding one strategy without blocks. *)
Definition text_x : string :=
  "[{" +:+ quoted "label" +:+ ":" +:+ quoted "x" +:+ ","
       +:+ quoted "isDefault" +:+ ":true,"
       +:+ quoted "blocks" +:+ ":[]}]".

(** The text of a list holding one strategy whose only block is [null]. *)
Definition text_null_block : string :=
  "[{" +:+ quoted "label" +:+ ":" +:+ quoted "x" +:+ ","
       +:+ quoted "isDefault" +:+ ":true,"
       +:+ quoted "blocks" +:+ ":[null]}]".

Definition parse (text : string) : Completion JValue :=
  if bool_decide (text = text_x) then Normal (JArr [strategy []])
  else if bool_decide (text = text_null_block)
       then Normal (JArr [strategy [JNull]])
  else if bool_decide (text = "[]") then Normal (JArr [])
  else if bool_decide (text = "{}") then Normal (JObj ∅)
  else Throw (mkError "SyntaxError" "Unexpected token").

Definition stringify (v : JValue) : string :=
  match v with
  | JArr [] => "[]"
  | JArr (_ :: _) => text_x
  | JObj _ => "{}"
  | _ => "null"
  end.

Definition typeError (v : JValue) (p : string) : Error :=
  mkError "TypeError"
    ("Cannot read properties of " +:+
     (if is_undefined v then "undefined" else "null") +:+
     " (reading '" +:+ p +:+ "')").

#[export] Instance engine : Engine := {|
  JSON_parse := parse;
  JSON_stringify := stringify;
  nullishPropertyError := typeError;
  JSON_parse_empty :=
    ex_intro _ (mkError "SyntaxError" "Unexpected token") eq_refl
|}.

Definition notDefined : Error :=
  mkError "ReferenceError" "StrategyConverter is not defined".

#[export] Instance converter : StrategyConverter := {|
  toShorthand := λ _, Throw notDefined;
  fromShorthand := λ _, Throw notDefined
|}.

Definition world (store : gmap string string) : World :=
  mkWorld store [] "2025-01-31T10:20:30.000Z".

(** A store holding [text_x] under the script's key. *)
Definition store_x : gmap string string := <[STRATEGY_KEY := text_x]> ∅.

Definition fileInput (result : string) : FileInput :=
  mkFileInput [mkFile "strategies.json" (Loaded result)].

End Sample.

(** A codec that changes nothing, to run the "shorthand" paths. *)
Module SampleIdentity.

#[export] Instance codec : StrategyConverter := {|
  toShorthand := Normal;
  fromShorthand := Normal
|}.

End SampleIdentity.

(** * Properties *)

(** ** Property reads *)

Section GetFacts.
Context `{Engine}.

(** A value either answers every property read or throws on every one. *)
Lemma get_cases (v : JValue) :
  (∀ p, get v p = Throw (nullishPropertyError v p)) ∨
  (∀ p, ∃ x, get v p = Normal x).
Proof. destruct v; simpl; eauto. Qed.

Lemma get_object fields p x :
  fields !! p = Some x → get (JObj fields) p = Normal x.
Proof. intros Hp. simpl. by rewrite Hp. Qed.

Lemma get_nullish_or_not (v : JValue) p x :
  get v p = Normal x → ∀ q, ∃ y, get v q = Normal y.
Proof. destruct (get_cases v) as [Ht|Hn]; [rewrite Ht; done | auto]. Qed.
End GetFacts.

(** ** [every] *)

Lemma every_true {A} (f : A → Completion bool) (l : list A) :
  every f l = Normal true ↔ Forall (λ x, f x = Normal true) l.
Proof.
  induction l as [|x l IH]; simpl.
  - split; [constructor | done].
  - rewrite Forall_cons, <- IH.
    destruct (f x) as [[]|e]; simpl; intuition congruence.
Qed.

(** ** The vocabularies *)

(** Every valid action type is a non-empty string, hence truthy. *)
Lemma validActionTypes_truthy ty :
  ty ∈ validActionTypes → truthy (JStr ty) = true.
Proof.
  intros Hin. simpl. apply bool_decide_eq_true_2. intros ->.
  revert Hin. by apply (bool_decide_eq_false_1 ("" ∈ validActionTypes)).
Qed.

(** ** The validators in terms of the values read *)

Section ValidatorFacts.
Context `{Engine}.

Lemma validateAction_reads action ty value :
  get action "type" = Normal ty →
  get action "value" = Normal value →
  validateAction action =
    Normal (truthy ty && negb (is_undefined value)
            && includes validActionTypes ty
            && bool_decide (typeof value = "number")).
Proof.
  intros Hty Hv. unfold validateAction, orM. rewrite Hty, Hv. simpl.
  destruct (truthy ty); simpl; [|done].
  destruct (is_undefined value); simpl; [done|].
  destruct (includes validActionTypes ty); simpl; [|done].
  repeat case_bool_decide; done.
Qed.

Lemma validateAction_nullish action :
  (∀ p, get action p = Throw (nullishPropertyError action p)) →
  validateAction action = Throw (nullishPropertyError action "type").
Proof. intros Ht. unfold validateAction, orM. rewrite !Ht. reflexivity. Qed.

Lemma validateBlock_nullish block :
  (∀ p, get block p = Throw (nullishPropertyError block p)) →
  validateBlock block = Throw (nullishPropertyError block "id").
Proof. intros Ht. unfold validateBlock, orM. rewrite !Ht. reflexivity. Qed.

(** A falsy required field makes [validateBlock] answer false. *)
Lemma validateBlock_falsy_field block p x :
  p ∈ ["id"; "type"; "on"; "do"] →
  get block p = Normal x → truthy x = false →
  validateBlock block = Normal false.
Proof.
  intros Hp Hget Hx.
  destruct (get_nullish_or_not _ _ _ Hget "id") as [vid Hid].
  destruct (get_nullish_or_not _ _ _ Hget "type") as [vty Hty].
  destruct (get_nullish_or_not _ _ _ Hget "on") as [von Hon].
  destruct (get_nullish_or_not _ _ _ Hget "do") as [vdo Hdo].
  unfold validateBlock, orM. rewrite Hid, Hty, Hon, Hdo. simpl.
  assert (truthy vid && truthy vty && truthy von && truthy vdo = false)
    as Hall.
  { set_unfold in Hp.
    destruct Hp as [->|[->|[->|[->|[]]]]];
      [ replace vid with x by congruence
      | replace vty with x by congruence
      | replace von with x by congruence
      | replace vdo with x by congruence ];
      rewrite Hx; repeat (rewrite ?andb_false_r; simpl); reflexivity. }
  destruct (truthy vid), (truthy vty), (truthy von), (truthy vdo);
    simpl in *; done.
Qed.

Lemma validateStrategy_reads strategy label isDefault blocks :
  get strategy "label" = Normal label →
  get strategy "isDefault" = Normal isDefault →
  get strategy "blocks" = Normal blocks →
  validateStrategy strategy =
    if truthy strategy && bool_decide (typeof strategy = "object")
       && truthy label && isArray blocks
       && bool_decide (typeof isDefault = "boolean")
    then match blocks with
         | JArr items => every validateBlock items
         | _ => Normal false
         end
    else Normal false.
Proof.
  intros Hl Hd Hb. unfold validateStrategy, orM. rewrite Hl, Hd, Hb. simpl.
  destruct (truthy strategy); simpl; [|done].
  destruct (truthy label), blocks; repeat case_bool_decide; simpl; done.
Qed.

Lemma validateStrategy_no_reads strategy :
  (∀ p, get strategy p = Throw (nullishPropertyError strategy p)) →
  validateStrategy strategy = Normal false.
Proof. intros Ht. destruct strategy; try done; by specialize (Ht ""). Qed.
End ValidatorFacts.

(** ** Claims about the validators *)

Section ValidatorClaims.
Context `{Engine}.

(** C1: [validateStrategy s] returns true if and only if [s] is a non-null
    object, [s.label] is truthy, [s.isDefault] is a boolean, [s.blocks] is
    an array and every element of it passes [validateBlock]; in particular
    a strategy with a truthy label, a boolean [isDefault] and an empty
    [blocks] array validates. *)
Theorem validateStrategy_true_iff :
  (∀ s : JValue,
     validateStrategy s = Normal true ↔
     (s ≠ JNull ∧ typeof s = "object") ∧
     ∃ label isDefault blocks,
       get s "label" = Normal label ∧ truthy label = true ∧
       get s "isDefault" = Normal isDefault ∧
       typeof isDefault = "boolean" ∧
       get s "blocks" = Normal (JArr blocks) ∧
       Forall (λ block, validateBlock block = Normal true) blocks)
  ∧
  (∀ s label flag,
     get s "label" = Normal label → truthy label = true →
     get s "isDefault" = Normal (JBool flag) →
     get s "blocks" = Normal (JArr []) →
     validateStrategy s = Normal true).
Proof.
  assert (∀ s : JValue,
     validateStrategy s = Normal true ↔
     (s ≠ JNull ∧ typeof s = "object") ∧
     ∃ label isDefault blocks,
       get s "label" = Normal label ∧ truthy label = true ∧
       get s "isDefault" = Normal isDefault ∧
       typeof isDefault = "boolean" ∧
       get s "blocks" = Normal (JArr blocks) ∧
       Forall (λ block, validateBlock block = Normal true) blocks) as Hiff.
  { intros s. destruct (get_cases s) as [Ht|Hn].
    - rewrite (validateStrategy_no_reads _ Ht). split; [done|].
      intros (_ & label & _ & _ & Hl & _). by rewrite Ht in Hl.
    - destruct (Hn "label") as [label Hl].
      destruct (Hn "isDefault") as [isDefault Hd].
      destruct (Hn "blocks") as [blocks Hb].
      rewrite (validateStrategy_reads _ _ _ _ Hl Hd Hb). split.
      + intros Hv.
        destruct (truthy s) eqn:Hs; simpl in Hv; [|done].
        case_bool_decide as Hobj; simpl in Hv; [|done].
        destruct (truthy label) eqn:Hlab; simpl in Hv; [|done].
        destruct blocks as [| | | | |items|]; simpl in Hv; try done.
        case_bool_decide as Hbool; simpl in Hv; [|done].
        split; [split; [by intros ->|done]|].
        exists label, isDefault, items.
        repeat split; try done. by apply every_true.
      + intros ([Hnull Hobj] & label' & isDefault' & items & Hl' & Hlab
                & Hd' & Hbool & Hb' & Hall).
        replace label with label' by congruence.
        replace isDefault with isDefault' by congruence.
        replace blocks with (JArr items) by congruence.
        rewrite Hlab, !bool_decide_eq_true_2 by done.
        assert (truthy s = true) as -> by (by destruct s).
        simpl. by apply every_true. }
  split; [exact Hiff|].
  intros s label flag Hl Hlab Hd Hb. apply Hiff.
  split.
  - destruct s; simpl in *; try done.
  - exists label, (JBool flag), []. by repeat split.
Qed.

(** C2: [validateBlock] checks its four required fields by truthiness, so a
    block whose [id] is the number 0 is rejected whatever its other fields
    are, whereas [validateAction] accepts an action whose [value] is 0 and
    whose [type] is one of the valid action types. *)
Theorem validateBlock_id_zero_validateAction_value_zero :
  (∀ block sign,
     get block "id" = Normal (JNum (S754_zero sign)) →
     validateBlock block = Normal false)
  ∧
  (∀ action ty sign,
     get action "type" = Normal (JStr ty) → ty ∈ validActionTypes →
     get action "value" = Normal (JNum (S754_zero sign)) →
     validateAction action = Normal true).
Proof.
  split.
  - intros block sign Hid.
    eapply (validateBlock_falsy_field block "id"); [set_solver|done|done].
  - intros action ty sign Hty Hin Hv.
    rewrite (validateAction_reads _ _ _ Hty Hv).
    rewrite (validActionTypes_truthy _ Hin). simpl.
    by rewrite !bool_decide_eq_true_2.
Qed.

(** C3: [validateAction a] returns true if and only if [a.type] is one of
    the 14 action type strings and [a.value] is defined and a number. *)
Theorem validateAction_true_iff (a : JValue) :
  (length validActionTypes = 14 ∧ NoDup validActionTypes) ∧
  (validateAction a = Normal true ↔
   ∃ ty value,
     get a "type" = Normal (JStr ty) ∧ ty ∈ validActionTypes ∧
     get a "value" = Normal value ∧
     value ≠ JUndefined ∧ typeof value = "number").
Proof.
  split.
  { split; [done|].
    apply (bool_decide_unpack (NoDup validActionTypes)). by vm_compute. }
  destruct (get_cases a) as [Ht|Hn].
  - rewrite (validateAction_nullish _ Ht). split; [done|].
    intros (ty & _ & Hty & _). by rewrite Ht in Hty.
  - destruct (Hn "type") as [ty Hty]. destruct (Hn "value") as [v Hv].
    rewrite (validateAction_reads _ _ _ Hty Hv). split.
    + intros Hok. injection Hok as Hok.
      apply andb_prop in Hok as [Hok Hnum].
      apply andb_prop in Hok as [Hok Hinc].
      apply andb_prop in Hok as [_ Hdef].
      destruct ty as [| | | |s| |]; simpl in Hinc; try done.
      exists s, v. repeat split; try done.
      * by apply bool_decide_eq_true in Hinc.
      * by intros ->.
      * by apply bool_decide_eq_true in Hnum.
    + intros (s & v' & Hty' & Hin & Hv' & Hdef & Hnum).
      replace ty with (JStr s) by congruence.
      replace v with v' by congruence.
      rewrite (validActionTypes_truthy _ Hin). simpl.
      rewrite !bool_decide_eq_true_2 by done. by destruct v'.
Qed.

(** C8 (the code departs from it): a strategy whose [blocks] array holds
    [null] makes [validateStrategy] throw the engine's [TypeError] for
    reading [id] of [null] instead of returning a boolean. *)
Theorem validateStrategy_null_block_throws :
  validateStrategy (Sample.strategy [JNull])
  = Throw (nullishPropertyError JNull "id").
Proof. reflexivity. Qed.

End ValidatorClaims.

(** ** Claims about the manager *)

Section ManagerClaims.
Context `{Engine} `{StrategyConverter}.

Lemma invalid_format_valid items :
  Forall (λ s, validateStrategy s = Normal true) items →
  invalid_format (JArr items) = Normal false.
Proof. intros Hall. simpl. by rewrite (proj2 (every_true _ _) Hall). Qed.

(** A text that parses is not the empty text, so [!text] is false. *)
Lemma parsed_not_absent text v :
  JSON_parse text = Normal v → absent (Some text) = false.
Proof.
  intros Hp. simpl. apply bool_decide_eq_false_2. intros ->.
  destruct JSON_parse_empty as [e He]. congruence.
Qed.

(** The [catch] clauses of [exportStrategies] and [getStrategies] rethrow
    what they caught. *)
Lemma try_catch_rethrow {A} (body : JS A) w :
  try_catch body (λ error, throw error) w = body w.
Proof. unfold try_catch, throw. by destruct (body w) as [[a|e] w']. Qed.

(** On a valid store the pipeline of [exportStrategies] runs to its end
    with the stored text as [exportData], for every format but
    "shorthand". *)
Lemma exportStrategies_valid_store format w text items :
  format ≠ "shorthand" →
  localStorage w !! STRATEGY_KEY = Some text →
  JSON_parse text = Normal (JArr items) →
  Forall (λ s, validateStrategy s = Normal true) items →
  exportStrategies format w =
    (Normal (Some text),
     mkWorld (localStorage w)
       (downloads w ++
        [mkDownload text "application/json"
           ("strategies_" +:+ format +:+ "_"
            +:+ split_head letter_T (isoNow w) +:+ ".json")])
       (isoNow w)).
Proof.
  intros Hformat Hstore Hparse Hvalid.
  unfold exportStrategies. rewrite try_catch_rethrow.
  unfold mbind, JS_bind, getItem. rewrite Hstore.
  rewrite (parsed_not_absent _ _ Hparse).
  unfold lift. simpl. rewrite Hparse.
  rewrite (invalid_format_valid _ Hvalid).
  by rewrite bool_decide_eq_false_2.
Qed.

Lemma exportStrategies_absent format w :
  localStorage w !! STRATEGY_KEY = None →
  exportStrategies format w = (Normal None, w).
Proof.
  intros Hstore. unfold exportStrategies. rewrite try_catch_rethrow.
  unfold mbind, JS_bind, getItem. by rewrite Hstore.
Qed.

Lemma getStrategies_absent format w :
  localStorage w !! STRATEGY_KEY = None →
  getStrategies format w = (Normal None, w).
Proof.
  intros Hstore. unfold getStrategies. rewrite try_catch_rethrow.
  unfold mbind, JS_bind, getItem. by rewrite Hstore.
Qed.

(** C4: when the stored text parses to an array whose elements all pass
    [validateStrategy], [exportStrategies "original"] returns that very text
    (and downloads it), not a re-serialization of the parsed value. *)
Theorem exportStrategies_original_passthrough w text items :
  localStorage w !! STRATEGY_KEY = Some text →
  JSON_parse text = Normal (JArr items) →
  Forall (λ s, validateStrategy s = Normal true) items →
  exportStrategies "original" w =
    (Normal (Some text),
     mkWorld (localStorage w)
       (downloads w ++
        [mkDownload text "application/json"
           ("strategies_original_" +:+ split_head letter_T (isoNow w)
            +:+ ".json")])
       (isoNow w)).
Proof.
  intros Hstore Hparse Hvalid.
  by rewrite (exportStrategies_valid_store "original" w text items).
Qed.

(** C5: when the file's text parses to an array whose elements all pass
    [validateStrategy], [importStrategies] with format "original" stores
    the serialization of that array under the fixed key and resolves with
    the array. *)
Theorem importStrategies_original_persists w fileInput file text items :
  files fileInput !! 0%nat = Some file →
  readAsText file = Loaded text →
  JSON_parse text = Normal (JArr items) →
  Forall (λ s, validateStrategy s = Normal true) items →
  importStrategies fileInput "original" w =
    (Resolved (JArr items),
     mkWorld (<[STRATEGY_KEY := JSON_stringify (JArr items)]> (localStorage w))
       (downloads w) (isoNow w)).
Proof.
  intros Hfile Hread Hparse Hvalid.
  unfold importStrategies. rewrite Hfile, Hread.
  unfold onload_try, mbind, JS_bind, lift. simpl. rewrite Hparse.
  by rewrite (invalid_format_valid _ Hvalid).
Qed.

(** C6: when parsing the file's text throws, or decoding the shorthand form
    throws, or the content is not an array of valid strategies (an element
    is rejected, or validating one throws), the promise is rejected with an
    error whose message is "Invalid strategy file: " followed by the message
    of that failure, and the world, its store included, is as before. *)
Theorem importStrategies_failure_rejects w fileInput file text format e :
  files fileInput !! 0%nat = Some file →
  readAsText file = Loaded text →
  JSON_parse text = Throw e
  ∨ (∃ parsed,
       JSON_parse text = Normal parsed ∧ format = "shorthand" ∧
       fromShorthand parsed = Throw e)
  ∨ (∃ parsed content,
       JSON_parse text = Normal parsed ∧
       (if bool_decide (format = "shorthand")
        then fromShorthand parsed else Normal parsed) = Normal content ∧
       ((isArray content = false ∧
         e = mkError "Error" "Invalid strategy format")
        ∨ (∃ items, content = JArr items ∧
             every validateStrategy items = Normal false ∧
             e = mkError "Error" "Invalid strategy format")
        ∨ (∃ items, content = JArr items ∧
             every validateStrategy items = Throw e))) →
  importStrategies fileInput format w =
    (Rejected (mkError "Error" ("Invalid strategy file: " +:+ message e)), w).
Proof.
  intros Hfile Hread Hfail.
  unfold importStrategies. rewrite Hfile, Hread.
  unfold onload_try, mbind, JS_bind, lift, throw. simpl.
  destruct Hfail as [Hparse|[(parsed & Hparse & -> & Hdec)
                            |(parsed & content & Hparse & Hdec & Hval)]].
  - by rewrite Hparse.
  - rewrite Hparse. simpl. by rewrite Hdec.
  - rewrite Hparse.
    assert ((if bool_decide (format = "shorthand")
             then (λ w0, (fromShorthand parsed, w0))
             else mret parsed) w = (Normal content, w)) as ->.
    { case_bool_decide; [by rewrite Hdec|by injection Hdec as ->]. }
    destruct Hval as [[Harr ->]|[(items & -> & Hev & ->)
                                |(items & -> & Hev)]].
    + by destruct content.
    + simpl. by rewrite Hev.
    + simpl. by rewrite Hev.
Qed.

(** C7: when the store holds nothing under the fixed key,
    [exportStrategies] and [getStrategies] return [null]; neither throws,
    and the world (so also the list of downloads) is as before. *)
Theorem absent_store_returns_null w format :
  localStorage w !! STRATEGY_KEY = None →
  exportStrategies format w = (Normal None, w) ∧
  getStrategies format w = (Normal None, w).
Proof.
  intros Hstore.
  by rewrite exportStrategies_absent, getStrategies_absent.
Qed.

(** *** Frame lemmas *)

Lemma getStrategies_world format w : snd (getStrategies format w) = w.
Proof.
  unfold getStrategies. rewrite try_catch_rethrow.
  unfold mbind, JS_bind, getItem, lift, throw.
  destruct (absent _); [done|].
  destruct (JSON_parse _) as [parsed|e]; [|done].
  destruct (invalid_format parsed) as [[]|e]; try done.
  case_bool_decide; [|done].
  by destruct (toShorthand parsed).
Qed.

Lemma exportStrategies_store format w :
  localStorage (snd (exportStrategies format w)) = localStorage w.
Proof.
  unfold exportStrategies. rewrite try_catch_rethrow.
  unfold mbind, JS_bind, getItem, lift, throw.
  destruct (absent _); [done|].
  destruct (JSON_parse _) as [parsed|e]; [|done].
  destruct (invalid_format parsed) as [[]|e]; try done.
  case_bool_decide; [|done].
  by destruct (toShorthand parsed).
Qed.

Lemma importStrategies_rejected fileInput format w reason :
  fst (importStrategies fileInput format w) = Rejected reason →
  snd (importStrategies fileInput format w) = w.
Proof.
  unfold importStrategies.
  destruct (files fileInput !! 0%nat) as [file|]; [|done].
  destruct (readAsText file) as [content|]; [|done].
  unfold onload_try, mbind, JS_bind, lift, throw.
  destruct (JSON_parse content) as [parsed|e]; [|done].
  case_bool_decide.
  - destruct (fromShorthand parsed) as [decoded|e]; [|done].
    by destruct (invalid_format decoded) as [[]|e].
  - simpl. by destruct (invalid_format parsed) as [[]|e].
Qed.

Lemma importStrategies_resolved fileInput format w value :
  fst (importStrategies fileInput format w) = Resolved value →
  snd (importStrategies fileInput format w) =
    mkWorld (<[STRATEGY_KEY := JSON_stringify value]> (localStorage w))
      (downloads w) (isoNow w).
Proof.
  unfold importStrategies.
  destruct (files fileInput !! 0%nat) as [file|]; [|done].
  destruct (readAsText file) as [content|]; [|done].
  unfold onload_try, mbind, JS_bind, lift, throw.
  destruct (JSON_parse content) as [parsed|e]; [|done].
  case_bool_decide.
  - destruct (fromShorthand parsed) as [decoded|e]; [|done].
    destruct (invalid_format decoded) as [[]|e]; simpl; try done.
    by intros [= ->].
  - simpl. destruct (invalid_format parsed) as [[]|e]; simpl; try done.
    by intros [= ->].
Qed.

(** C9: the operations touch the store only at the key
    ['strategies_saved'].  [getStrategies] and [exportStrategies] leave the
    store as it is; [importStrategies] leaves every other key as it is,
    writes the key exactly when its promise resolves, and leaves the store
    as it is when the promise is rejected.  What the operations answer
    depends on the store through that key alone. *)
Theorem store_access_only_strategies_saved :
  STRATEGY_KEY = "strategies_saved" ∧
  (∀ format w, snd (getStrategies format w) = w) ∧
  (∀ format w,
     localStorage (snd (exportStrategies format w)) = localStorage w) ∧
  (∀ fileInput format w k,
     k ≠ STRATEGY_KEY →
     localStorage (snd (importStrategies fileInput format w)) !! k
     = localStorage w !! k) ∧
  (∀ fileInput format w reason,
     fst (importStrategies fileInput format w) = Rejected reason →
     snd (importStrategies fileInput format w) = w) ∧
  (∀ fileInput format w value,
     fst (importStrategies fileInput format w) = Resolved value →
     localStorage (snd (importStrategies fileInput format w))
     = <[STRATEGY_KEY := JSON_stringify value]> (localStorage w)) ∧
  (∀ format w1 w2,
     localStorage w1 !! STRATEGY_KEY = localStorage w2 !! STRATEGY_KEY →
     fst (getStrategies format w1) = fst (getStrategies format w2) ∧
     fst (exportStrategies format w1) = fst (exportStrategies format w2)) ∧
  (∀ fileInput format w1 w2,
     fst (importStrategies fileInput format w1)
     = fst (importStrategies fileInput format w2)).
Proof.
  split; [done|].
  split; [apply getStrategies_world|].
  split; [apply exportStrategies_store|].
  split.
  { intros fileInput format w k Hk.
    destruct (fst (importStrategies fileInput format w)) as [v|r] eqn:Hres.
    - rewrite (importStrategies_resolved _ _ _ _ Hres). simpl.
      by rewrite lookup_insert_ne.
    - by rewrite (importStrategies_rejected _ _ _ _ Hres). }
  split; [apply importStrategies_rejected|].
  split.
  { intros fileInput format w value Hres.
    by rewrite (importStrategies_resolved _ _ _ _ Hres). }
  split.
  - intros format w1 w2 Hkey.
    unfold getStrategies, exportStrategies. rewrite !try_catch_rethrow.
    unfold mbind, JS_bind, getItem, lift, throw. rewrite Hkey.
    destruct (absent _); [done|].
    destruct (JSON_parse _) as [parsed|e]; [|done].
    destruct (invalid_format parsed) as [[]|e]; try done.
    case_bool_decide; [|done].
    by destruct (toShorthand parsed).
  - intros fileInput format w1 w2. unfold importStrategies.
    destruct (files fileInput !! 0%nat) as [file|]; [|done].
    destruct (readAsText file) as [content|]; [|done].
    unfold onload_try, mbind, JS_bind, lift, throw.
    destruct (JSON_parse content) as [parsed|e]; [|done].
    case_bool_decide.
    + destruct (fromShorthand parsed) as [decoded|e]; [|done].
      by destruct (invalid_format decoded) as [[]|e].
    + simpl. by destruct (invalid_format parsed) as [[]|e].
Qed.

(** C10: evaluating the script calls [exportStrategies] once, with the
    default format "original", and nothing else: loading it on a store that
    holds valid strategies triggers exactly one download of the stored
    text, on an empty store it does nothing, and in no case is the store
    written. *)
Theorem script_runs_export_original :
  (∀ w, script w = exportStrategies "original" w) ∧
  (∀ w, localStorage (snd (script w)) = localStorage w) ∧
  (∀ w, localStorage w !! STRATEGY_KEY = None → script w = (Normal None, w)) ∧
  (∀ w text items,
     localStorage w !! STRATEGY_KEY = Some text →
     JSON_parse text = Normal (JArr items) →
     Forall (λ s, validateStrategy s = Normal true) items →
     fst (script w) = Normal (Some text) ∧
     downloads (snd (script w)) =
       (downloads w ++
        [mkDownload text "application/json"
           ("strategies_original_" +:+ split_head letter_T (isoNow w)
            +:+ ".json")])%list).
Proof.
  assert (∀ w, script w = exportStrategies "original" w) as Hscript by done.
  split; [done|].
  split; [intros w; rewrite Hscript; apply exportStrategies_store|].
  split.
  - intros w Hnone. rewrite Hscript. by apply exportStrategies_absent.
  - intros w text items Hstore Hparse Hvalid. rewrite Hscript.
    by rewrite (exportStrategies_valid_store "original" w text items).
Qed.

End ManagerClaims.

(** ** The claims on concrete inputs *)

Section Witnesses.
Import Sample.

Lemma validateStrategy_true_iff_witness :
  validateStrategy (strategy []) = Normal true ∧
  validateStrategy (strategy [block]) = Normal true.
Proof.
  split.
  - apply (proj2 (@validateStrategy_true_iff engine)
             (strategy []) (JStr "x") true); reflexivity.
  - apply (proj1 (@validateStrategy_true_iff engine)).
    split; [split; [discriminate|reflexivity]|].
    exists (JStr "x"), (JBool true), [block].
    split; [reflexivity|]. split; [reflexivity|]. split; [reflexivity|].
    split; [reflexivity|]. split; [reflexivity|].
    apply Forall_cons. split; [reflexivity|apply Forall_nil_2].
Defined.

Lemma validateBlock_id_zero_validateAction_value_zero_witness :
  validateBlock block_id0 = Normal false ∧
  validateAction action = Normal true.
Proof.
  split.
  - apply (proj1 (@validateBlock_id_zero_validateAction_value_zero engine)
             block_id0 false).
    reflexivity.
  - apply (proj2 (@validateBlock_id_zero_validateAction_value_zero engine)
             action "resetAmount" false).
    + reflexivity.
    + apply (bool_decide_unpack ("resetAmount" ∈ validActionTypes)).
      exact I.
    + reflexivity.
Defined.

Lemma validateAction_true_iff_witness :
  validateAction action = Normal true.
Proof.
  apply (proj2 (@validateAction_true_iff engine action)).
  exists "resetAmount", (JNum zero).
  split; [reflexivity|]. split.
  { apply (bool_decide_unpack ("resetAmount" ∈ validActionTypes)). exact I. }
  split; [reflexivity|]. split; [discriminate|reflexivity].
Defined.

Lemma exportStrategies_original_passthrough_witness :
  exportStrategies "original" (world store_x) =
    (Normal (Some text_x),
     mkWorld store_x
       [mkDownload text_x "application/json"
          "strategies_original_2025-01-31.json"]
       "2025-01-31T10:20:30.000Z").
Proof.
  apply (@exportStrategies_original_passthrough engine converter
           (world store_x) text_x [strategy []]).
  - reflexivity.
  - reflexivity.
  - apply Forall_cons. split; [reflexivity|apply Forall_nil_2].
Defined.

Lemma importStrategies_original_persists_witness :
  importStrategies (fileInput text_x) "original" (world ∅) =
    (Resolved (JArr [strategy []]), world store_x).
Proof.
  apply (@importStrategies_original_persists engine converter (world ∅)
           (fileInput text_x) (mkFile "strategies.json" (Loaded text_x))
           text_x [strategy []]).
  - reflexivity.
  - reflexivity.
  - reflexivity.
  - apply Forall_cons. split; [reflexivity|apply Forall_nil_2].
Defined.

Lemma importStrategies_failure_rejects_witness :
  importStrategies (fileInput "not json") "original" (world store_x) =
    (Rejected (mkError "Error" "Invalid strategy file: Unexpected token"),
     world store_x)
  ∧
  importStrategies (fileInput "[]") "shorthand" (world store_x) =
    (Rejected (mkError "Error"
       "Invalid strategy file: StrategyConverter is not defined"),
     world store_x)
  ∧
  importStrategies (fileInput "{}") "original" (world store_x) =
    (Rejected (mkError "Error"
       "Invalid strategy file: Invalid strategy format"),
     world store_x)
  ∧
  importStrategies (fileInput text_null_block) "original" (world store_x) =
    (Rejected (mkError "Error"
       "Invalid strategy file: Cannot read properties of null (reading 'id')"),
     world store_x).
Proof.
  split; [|split; [|split]].
  - apply (@importStrategies_failure_rejects engine converter
             (world store_x) (fileInput "not json")
             (mkFile "strategies.json" (Loaded "not json")) "not json"
             "original" (mkError "SyntaxError" "Unexpected token"));
      [reflexivity|reflexivity|].
    left. reflexivity.
  - apply (@importStrategies_failure_rejects engine converter
             (world store_x) (fileInput "[]")
             (mkFile "strategies.json" (Loaded "[]")) "[]"
             "shorthand" notDefined);
      [reflexivity|reflexivity|].
    right; left. exists (JArr []).
    split; [reflexivity|]. split; reflexivity.
  - apply (@importStrategies_failure_rejects engine converter
             (world store_x) (fileInput "{}")
             (mkFile "strategies.json" (Loaded "{}")) "{}"
             "original" (mkError "Error" "Invalid strategy format"));
      [reflexivity|reflexivity|].
    right; right. exists (JObj ∅), (JObj ∅).
    split; [reflexivity|]. split; [reflexivity|].
    left. split; reflexivity.
  - apply (@importStrategies_failure_rejects engine converter
             (world store_x) (fileInput text_null_block)
             (mkFile "strategies.json" (Loaded text_null_block))
             text_null_block "original" (typeError JNull "id"));
      [reflexivity|reflexivity|].
    right; right.
    exists (JArr [strategy [JNull]]), (JArr [strategy [JNull]]).
    split; [reflexivity|]. split; [reflexivity|].
    right; right. exists [strategy [JNull]]. split; reflexivity.
Defined.

Lemma absent_store_returns_null_witness :
  exportStrategies "original" (world ∅) = (Normal None, world ∅) ∧
  getStrategies "original" (world ∅) = (Normal None, world ∅).
Proof.
  apply (@absent_store_returns_null engine converter (world ∅) "original").
  reflexivity.
Defined.

Lemma store_access_only_strategies_saved_witness :
  localStorage (snd (importStrategies (fileInput text_x) "original"
                       (world (<["theme" := "dark"]> ∅)))) !! "theme"
  = Some "dark"
  ∧ snd (importStrategies (fileInput "{}") "original" (world store_x))
    = world store_x.
Proof.
  destruct (@store_access_only_strategies_saved engine converter)
    as (_ & _ & _ & Hother & Hrejected & _).
  split.
  - rewrite (Hother (fileInput text_x) "original"
               (world (<["theme" := "dark"]> ∅)) "theme").
    + reflexivity.
    + discriminate.
  - apply (Hrejected (fileInput "{}") "original" (world store_x)
             (mkError "Error"
                "Invalid strategy file: Invalid strategy format")).
    reflexivity.
Defined.

Lemma script_runs_export_original_witness :
  fst (script (world store_x)) = Normal (Some text_x) ∧
  downloads (snd (script (world store_x))) =
    [mkDownload text_x "application/json"
       "strategies_original_2025-01-31.json"].
Proof.
  destruct (@script_runs_export_original engine converter)
    as (_ & _ & _ & Hvalid).
  apply (Hvalid (world store_x) text_x [strategy []]).
  - reflexivity.
  - reflexivity.
  - apply Forall_cons. split; [reflexivity|apply Forall_nil_2].
Defined.

End Witnesses.


(** * Further properties of the validators *)

(** ** More on [every] *)

(** [every] answers false exactly when some element is rejected and all the
    elements before it are accepted; the elements after it are not visited. *)
Lemma every_false {A} (f : A → Completion bool) (l : list A) :
  every f l = Normal false ↔
  ∃ (pre : list A) x rest,
    l = (pre ++ x :: rest)%list ∧
    Forall (λ y, f y = Normal true) pre ∧ f x = Normal false.
Proof.
  induction l as [|a l IH]; simpl.
  - split; [done|]. intros ([|??] & ? & ? & ? & _); done.
  - destruct (f a) as [[]|e] eqn:Ha; simpl.
    + rewrite IH. split.
      * intros (pre & x & rest & -> & Hpre & Hx).
        exists (a :: pre), x, rest.
        split; [done|]. split; [by apply Forall_cons|done].
      * intros ([|b pre] & x & rest & Heq & Hpre & Hx);
          injection Heq as -> ->; [congruence|].
        apply Forall_cons in Hpre as [_ Hpre]. by exists pre, x, rest.
    + split; [|done]. intros _. by exists [], a, l.
    + split; [done|].
      intros ([|b pre] & x & rest & Heq & Hpre & Hx);
        injection Heq as -> ->; [congruence|].
      apply Forall_cons in Hpre as [Hb _]. congruence.
Qed.

(** [every] throws exactly when the callback throws on some element and all
    the elements before it are accepted. *)
Lemma every_throw {A} (f : A → Completion bool) (l : list A) e :
  every f l = Throw e ↔
  ∃ (pre : list A) x rest,
    l = (pre ++ x :: rest)%list ∧
    Forall (λ y, f y = Normal true) pre ∧ f x = Throw e.
Proof.
  induction l as [|a l IH]; simpl.
  - split; [done|]. intros ([|??] & ? & ? & ? & _); done.
  - destruct (f a) as [[]|e'] eqn:Ha; simpl.
    + rewrite IH. split.
      * intros (pre & x & rest & -> & Hpre & Hx).
        exists (a :: pre), x, rest.
        split; [done|]. split; [by apply Forall_cons|done].
      * intros ([|b pre] & x & rest & Heq & Hpre & Hx);
          injection Heq as -> ->; [congruence|].
        apply Forall_cons in Hpre as [_ Hpre]. by exists pre, x, rest.
    + split; [done|].
      intros ([|b pre] & x & rest & Heq & Hpre & Hx);
        injection Heq as -> ->; [congruence|].
      apply Forall_cons in Hpre as [Hb _]. congruence.
    + split.
      * intros [= ->]. by exists [], a, l.
      * intros ([|b pre] & x & rest & Heq & Hpre & Hx);
          injection Heq as -> ->; [congruence|].
        apply Forall_cons in Hpre as [Hb _]. congruence.
Qed.

Section ValidatorMore.
Context `{Engine}.

(** A value that is neither [null] nor [undefined] answers every read. *)
Lemma get_not_nullish (v : JValue) :
  v ≠ JNull → v ≠ JUndefined → ∀ p, ∃ x, get v p = Normal x.
Proof. intros Hn Hu p. destruct v; simpl; eauto; done. Qed.

Lemma truthy_not_nullish (v : JValue) :
  truthy v = true → v ≠ JNull ∧ v ≠ JUndefined.
Proof. by destruct v. Qed.

Lemma get_normal_not_nullish (v : JValue) p x :
  get v p = Normal x → v ≠ JNull ∧ v ≠ JUndefined.
Proof. by destruct v. Qed.

Lemma validateCondition_reads condition ty value betType profitType :
  get condition "type" = Normal ty →
  get condition "value" = Normal value →
  get condition "betType" = Normal betType →
  get condition "profitType" = Normal profitType →
  validateCondition condition =
    Normal (truthy ty && negb (is_undefined value)
            && truthy betType && truthy profitType
            && includes validConditionTypes ty
            && includes validBetTypes betType
            && includes validProfitTypes profitType
            && bool_decide (typeof value = "number")).
Proof.
  intros Hty Hv Hb Hp. unfold validateCondition, orM.
  rewrite Hty, Hv, Hb, Hp. simpl.
  destruct (truthy ty); simpl; [|done].
  destruct (is_undefined value); simpl; [done|].
  destruct (truthy betType); simpl; [|done].
  destruct (truthy profitType); simpl; [|done].
  destruct (includes validConditionTypes ty); simpl; [|done].
  destruct (includes validBetTypes betType); simpl; [|done].
  destruct (includes validProfitTypes profitType); simpl; [|done].
  repeat case_bool_decide; done.
Qed.

Lemma validateCondition_nullish condition :
  (∀ p, get condition p = Throw (nullishPropertyError condition p)) →
  validateCondition condition = Throw (nullishPropertyError condition "type").
Proof. intros Ht. unfold validateCondition, orM. rewrite !Ht. reflexivity. Qed.

(** Both nested validators return a boolean on anything but [null] and
    [undefined]. *)
Lemma validateCondition_returns condition :
  condition ≠ JNull → condition ≠ JUndefined →
  ∃ b, validateCondition condition = Normal b.
Proof.
  intros Hn Hu.
  destruct (get_not_nullish _ Hn Hu "type") as [ty Hty].
  destruct (get_not_nullish _ Hn Hu "value") as [v Hv].
  destruct (get_not_nullish _ Hn Hu "betType") as [bt Hbt].
  destruct (get_not_nullish _ Hn Hu "profitType") as [pt Hpt].
  rewrite (validateCondition_reads _ _ _ _ _ Hty Hv Hbt Hpt). eauto.
Qed.

Lemma validateAction_returns action :
  action ≠ JNull → action ≠ JUndefined →
  ∃ b, validateAction action = Normal b.
Proof.
  intros Hn Hu.
  destruct (get_not_nullish _ Hn Hu "type") as [ty Hty].
  destruct (get_not_nullish _ Hn Hu "value") as [v Hv].
  rewrite (validateAction_reads _ _ _ Hty Hv). eauto.
Qed.

Lemma validateCondition_true_truthy condition :
  validateCondition condition = Normal true → truthy condition = true.
Proof.
  intros Hv. destruct (get_cases condition) as [Ht|Hn].
  - by rewrite (validateCondition_nullish _ Ht) in Hv.
  - destruct (Hn "type") as [ty Hty]. destruct (Hn "value") as [v Hval].
    destruct (Hn "betType") as [bt Hbt].
    destruct (Hn "profitType") as [pt Hpt].
    rewrite (validateCondition_reads _ _ _ _ _ Hty Hval Hbt Hpt) in Hv.
    destruct condition as [| | | | | |fields]; simpl in *; try done;
      by injection Hty as <-.
Qed.

Lemma validateAction_true_truthy action :
  validateAction action = Normal true → truthy action = true.
Proof.
  intros Hv. destruct (get_cases action) as [Ht|Hn].
  - by rewrite (validateAction_nullish _ Ht) in Hv.
  - destruct (Hn "type") as [ty Hty]. destruct (Hn "value") as [v Hval].
    rewrite (validateAction_reads _ _ _ Hty Hval) in Hv.
    destruct action as [| | | | | |fields]; simpl in *; try done;
      by injection Hty as <-.
Qed.

Lemma validateBlock_reads block id ty on do :
  get block "id" = Normal id →
  get block "type" = Normal ty →
  get block "on" = Normal on →
  get block "do" = Normal do →
  validateBlock block =
    if truthy id && truthy ty && truthy on && truthy do
       && includes ["bets"; "profit"] ty
    then validateCondition on &&& validateAction do
    else Normal false.
Proof.
  intros Hid Hty Hon Hdo. unfold validateBlock, orM.
  rewrite Hid, Hty, Hon, Hdo. simpl.
  destruct (truthy id); simpl; [|done].
  destruct (truthy ty); simpl; [|done].
  destruct (truthy on); simpl; [|done].
  destruct (truthy do); simpl; [|done].
  by destruct (includes ["bets"; "profit"] ty).
Qed.

(** On anything but [null] and [undefined], [validateBlock] returns. *)
Lemma validateBlock_returns block :
  block ≠ JNull → block ≠ JUndefined →
  ∃ b, validateBlock block = Normal b.
Proof.
  intros Hn Hu.
  destruct (get_not_nullish _ Hn Hu "id") as [id Hid].
  destruct (get_not_nullish _ Hn Hu "type") as [ty Hty].
  destruct (get_not_nullish _ Hn Hu "on") as [on Hon].
  destruct (get_not_nullish _ Hn Hu "do") as [do Hdo].
  rewrite (validateBlock_reads _ _ _ _ _ Hid Hty Hon Hdo).
  destruct (truthy id); simpl; [|eauto].
  destruct (truthy ty); simpl; [|eauto].
  destruct (truthy on) eqn:Ton; simpl; [|eauto].
  destruct (truthy do) eqn:Tdo; simpl; [|eauto].
  destruct (includes _ ty); simpl; [|eauto].
  apply truthy_not_nullish in Ton as [??], Tdo as [??].
  destruct (validateCondition_returns on) as [[] ->]; try done;
    simpl; [|eauto].
  by apply validateAction_returns.
Qed.

End ValidatorMore.

Section ValidatorExtras.
Context `{Engine}.

(** A value found in a vocabulary without the empty string is truthy. *)
Lemma includes_truthy (l : list string) (x : JValue) :
  "" ∉ l → includes l x = true → truthy x = true.
Proof.
  intros Hne Hin. destruct x as [| | | |s| |]; simpl in *; try done.
  apply bool_decide_eq_true in Hin. apply bool_decide_eq_true_2.
  by intros ->.
Qed.

Lemma includes_string (l : list string) (x : JValue) :
  includes l x = true ↔ ∃ s, x = JStr s ∧ s ∈ l.
Proof.
  split.
  - destruct x as [| | | |s| |]; simpl; try done.
    intros Hin. apply bool_decide_eq_true in Hin. eauto.
  - intros (s & -> & Hin). simpl. by apply bool_decide_eq_true_2.
Qed.

Lemma vocabularies_without_empty :
  ("" ∉ validConditionTypes) ∧ ("" ∉ validBetTypes) ∧
  ("" ∉ validProfitTypes) ∧ ("" ∉ ["bets"; "profit"]).
Proof.
  split; [|split; [|split]].
  - by apply (bool_decide_eq_false_1 ("" ∈ validConditionTypes)).
  - by apply (bool_decide_eq_false_1 ("" ∈ validBetTypes)).
  - by apply (bool_decide_eq_false_1 ("" ∈ validProfitTypes)).
  - by apply (bool_decide_eq_false_1 ("" ∈ ["bets"; "profit"])).
Qed.

(** X1: [validateCondition c] returns true if and only if [c.type] is one of
    the 9 condition types, [c.betType] one of the 3 bet types,
    [c.profitType] one of the 3 profit types and [c.value] a number; both
    [betType] and [profitType] are required whatever the condition type. *)
Theorem validateCondition_true_iff (c : JValue) :
  (length validConditionTypes = 9 ∧ length validBetTypes = 3
   ∧ length validProfitTypes = 3) ∧
  (validateCondition c = Normal true ↔
   ∃ ty value betType profitType,
     get c "type" = Normal (JStr ty) ∧ ty ∈ validConditionTypes ∧
     get c "value" = Normal value ∧ typeof value = "number" ∧
     get c "betType" = Normal (JStr betType) ∧ betType ∈ validBetTypes ∧
     get c "profitType" = Normal (JStr profitType) ∧
     profitType ∈ validProfitTypes).
Proof.
  split; [done|].
  destruct vocabularies_without_empty as (Hct & Hbt & Hpt & _).
  destruct (get_cases c) as [Ht|Hn].
  - rewrite (validateCondition_nullish _ Ht). split; [done|].
    intros (ty & _ & _ & _ & Hty & _). by rewrite Ht in Hty.
  - destruct (Hn "type") as [ty Hty]. destruct (Hn "value") as [v Hv].
    destruct (Hn "betType") as [bt Hb].
    destruct (Hn "profitType") as [pt Hp].
    rewrite (validateCondition_reads _ _ _ _ _ Hty Hv Hb Hp). split.
    + intros Hok. injection Hok as Hok.
      apply andb_prop in Hok as [Hok Hnum].
      apply andb_prop in Hok as [Hok Hipt].
      apply andb_prop in Hok as [Hok Hibt].
      apply andb_prop in Hok as [_ Hity].
      apply includes_string in Hity as (s1 & -> & Hs1).
      apply includes_string in Hibt as (s2 & -> & Hs2).
      apply includes_string in Hipt as (s3 & -> & Hs3).
      apply bool_decide_eq_true in Hnum.
      exists s1, v, s2, s3. by repeat (split; [done|]).
    + intros (s1 & v' & s2 & s3 & Hty' & Hs1 & Hv' & Hnum & Hb' & Hs2
              & Hp' & Hs3).
      replace ty with (JStr s1) by congruence.
      replace v with v' by congruence.
      replace bt with (JStr s2) by congruence.
      replace pt with (JStr s3) by congruence.
      assert (includes validConditionTypes (JStr s1) = true) as Hi1
        by (apply includes_string; eauto).
      assert (includes validBetTypes (JStr s2) = true) as Hi2
        by (apply includes_string; eauto).
      assert (includes validProfitTypes (JStr s3) = true) as Hi3
        by (apply includes_string; eauto).
      rewrite (includes_truthy _ _ Hct Hi1), (includes_truthy _ _ Hbt Hi2),
        (includes_truthy _ _ Hpt Hi3), Hi1, Hi2, Hi3.
      rewrite bool_decide_eq_true_2 by done. by destruct v'.
Qed.

(** X2: [validateBlock b] returns true if and only if [b.id] is truthy,
    [b.type] is "bets" or "profit", [b.on] passes [validateCondition] and
    [b.do] passes [validateAction]. *)
Theorem validateBlock_true_iff (b : JValue) :
  validateBlock b = Normal true ↔
  ∃ id ty on do,
    get b "id" = Normal id ∧ truthy id = true ∧
    get b "type" = Normal (JStr ty) ∧ (ty = "bets" ∨ ty = "profit") ∧
    get b "on" = Normal on ∧ validateCondition on = Normal true ∧
    get b "do" = Normal do ∧ validateAction do = Normal true.
Proof.
  destruct (get_cases b) as [Ht|Hn].
  - rewrite (validateBlock_nullish _ Ht). split; [done|].
    intros (id & _ & _ & _ & Hid & _). by rewrite Ht in Hid.
  - destruct (Hn "id") as [id Hid]. destruct (Hn "type") as [ty Hty].
    destruct (Hn "on") as [on Hon]. destruct (Hn "do") as [do Hdo].
    rewrite (validateBlock_reads _ _ _ _ _ Hid Hty Hon Hdo). split.
    + intros Hok.
      destruct (truthy id) eqn:Tid; simpl in Hok; [|done].
      destruct (truthy ty) eqn:Tty; simpl in Hok; [|done].
      destruct (truthy on) eqn:Ton; simpl in Hok; [|done].
      destruct (truthy do) eqn:Tdo; simpl in Hok; [|done].
      destruct (includes _ ty) eqn:Hinc; simpl in Hok; [|done].
      apply includes_string in Hinc as (s & -> & Hs).
      unfold andM in Hok.
      destruct (validateCondition on) as [[]|e] eqn:Hc; simpl in Hok;
        try done.
      exists id, s, on, do. repeat (split; [done|]).
      split; [|done].
      apply list_elem_of_In in Hs. simpl in Hs.
      destruct Hs as [<-|[<-|[]]]; auto.
    + intros (id' & s & on' & do' & Hid' & Tid & Hty' & Hs & Hon' & Hc
              & Hdo' & Ha).
      replace id with id' by congruence.
      replace ty with (JStr s) by congruence.
      replace on with on' by congruence.
      replace do with do' by congruence.
      rewrite Tid, (validateCondition_true_truthy _ Hc),
        (validateAction_true_truthy _ Ha).
      unfold andM. rewrite Hc. simpl.
      by destruct Hs as [-> | ->].
Qed.

(** What [validateBlock] throws, it throws on [null] or [undefined]. *)
Lemma validateBlock_nullish_inv (b : JValue) (e : Error) :
  validateBlock b = Throw e →
  (b = JNull ∨ b = JUndefined) ∧ e = nullishPropertyError b "id".
Proof.
  intros Hthrow.
  assert (b = JNull ∨ b = JUndefined) as Hnull.
  { destruct b; auto;
      match goal with
      | |- ?v = _ ∨ _ =>
          destruct (validateBlock_returns v) as [r Hr]; [done|done|congruence]
      end. }
  split; [done|].
  destruct Hnull as [-> | ->];
    rewrite validateBlock_nullish in Hthrow by done; congruence.
Qed.

(** X3: [validateBlock] throws exactly on [null] and [undefined], and what
    it throws is the engine's error for reading [id]; on every other value
    (numbers, strings, booleans, arrays, objects, whatever their fields hold)
    it returns a boolean. *)
Theorem validateBlock_throws_iff (b : JValue) :
  (∀ e, validateBlock b = Throw e ↔
        (b = JNull ∨ b = JUndefined) ∧ e = nullishPropertyError b "id")
  ∧ (b ≠ JNull → b ≠ JUndefined → ∃ r, validateBlock b = Normal r).
Proof.
  split; [|apply validateBlock_returns].
  intros e. split.
  - apply validateBlock_nullish_inv.
  - intros [[-> | ->] ->]; by apply validateBlock_nullish.
Qed.

End ValidatorExtras.

Section StrategyExtras.
Context `{Engine}.

(** A strategy whose [label] reads as a truthy value is an object. *)
Lemma truthy_label_object s label :
  get s "label" = Normal label → truthy label = true →
  truthy s = true ∧ typeof s = "object".
Proof.
  destruct s; simpl; intros Hget Hl; try done;
    injection Hget as <-; done.
Qed.

(** X4: [validateStrategy s] throws exactly when [s] has a truthy label, a
    boolean [isDefault] and a [blocks] array in which a [null] (or
    [undefined]) element comes after valid blocks only; the error thrown is
    the engine's error for reading [id] of that element. *)
Theorem validateStrategy_throws_iff (s : JValue) (e : Error) :
  validateStrategy s = Throw e ↔
  ∃ label isDefault pre bad rest,
    get s "label" = Normal label ∧ truthy label = true ∧
    get s "isDefault" = Normal isDefault ∧ typeof isDefault = "boolean" ∧
    get s "blocks" = Normal (JArr (pre ++ bad :: rest)) ∧
    Forall (λ b, validateBlock b = Normal true) pre ∧
    (bad = JNull ∨ bad = JUndefined) ∧
    e = nullishPropertyError bad "id".
Proof.
  destruct (get_cases s) as [Ht|Hn].
  - rewrite (validateStrategy_no_reads _ Ht). split; [done|].
    intros (label & _ & _ & _ & _ & Hl & _). by rewrite Ht in Hl.
  - destruct (Hn "label") as [label Hl].
    destruct (Hn "isDefault") as [isDefault Hd].
    destruct (Hn "blocks") as [blocks Hb].
    rewrite (validateStrategy_reads _ _ _ _ Hl Hd Hb). split.
    + intros Hthrow.
      destruct (truthy s); simpl in Hthrow; [|done].
      case_bool_decide as Hobj; simpl in Hthrow; [|done].
      destruct (truthy label) eqn:Hlab; simpl in Hthrow; [|done].
      destruct blocks as [| | | | |items|]; simpl in Hthrow; try done.
      case_bool_decide as Hbool; simpl in Hthrow; [|done].
      apply every_throw in Hthrow as (pre & bad & rest & -> & Hpre & Hbad).
      destruct (validateBlock_nullish_inv bad e Hbad) as [Hnull ->].
      exists label, isDefault, pre, bad, rest.
      by repeat (split; [done|]).
    + intros (label' & isDefault' & pre & bad & rest & Hl' & Hlab & Hd'
              & Hbool & Hb' & Hpre & Hnull & ->).
      replace label with label' by congruence.
      replace isDefault with isDefault' by congruence.
      replace blocks with (JArr (pre ++ bad :: rest)) by congruence.
      destruct (truthy_label_object _ _ Hl' Hlab) as [-> ->].
      rewrite Hlab, !bool_decide_eq_true_2 by done. simpl.
      apply every_throw. exists pre, bad, rest.
      split; [done|]. split; [done|].
      apply validateBlock_nullish. by destruct Hnull as [-> | ->].
Qed.

(** X5: the first block that [validateBlock] rejects decides: when all the
    blocks before it are valid, [validateStrategy] returns false whatever
    comes after it, a [null] element included. *)
Theorem validateStrategy_first_rejected_block s pre x rest :
  get s "blocks" = Normal (JArr (pre ++ x :: rest)) →
  Forall (λ b, validateBlock b = Normal true) pre →
  validateBlock x = Normal false →
  validateStrategy s = Normal false.
Proof.
  intros Hb Hpre Hx.
  destruct (get_nullish_or_not _ _ _ Hb "label") as [label Hl].
  destruct (get_nullish_or_not _ _ _ Hb "isDefault") as [isDefault Hd].
  rewrite (validateStrategy_reads _ _ _ _ Hl Hd Hb).
  destruct (_ && _); [|done].
  apply every_false. by exists pre, x, rest.
Qed.

(** X6: on anything that is not an object with fields (on [null],
    [undefined], a boolean, a number, a string or an array)
    [validateStrategy] returns false and does not throw. *)
Theorem validateStrategy_not_object s :
  (∀ fields, s ≠ JObj fields) → validateStrategy s = Normal false.
Proof.
  intros Hs. destruct s as [| |b|n|s|items|fields]; try reflexivity.
  - by destruct b.
  - unfold validateStrategy. by destruct (truthy (JNum n)).
  - unfold validateStrategy. by destruct (truthy (JStr s)).
  - by destruct (Hs fields).
Qed.

End StrategyExtras.


(** * Further properties of the manager *)

(** The world after one more download. *)
Definition downloaded (w : World) (text fileName : string) : World :=
  mkWorld (localStorage w)
    (downloads w ++ [mkDownload text "application/json" fileName])
    (isoNow w).

(** The name [exportStrategies] gives the file it offers for download. *)
Definition exportFileName (format : string) (w : World) : string :=
  "strategies_" +:+ format +:+ "_" +:+ split_head letter_T (isoNow w)
  +:+ ".json".

(** The world after [importStrategies] stored [value]. *)
Definition stored (w : World) (text : string) : World :=
  mkWorld (<[STRATEGY_KEY := text]> (localStorage w)) (downloads w) (isoNow w).

Section ManagerMore.
Context `{Engine} `{StrategyConverter}.

(** The content check passes exactly on arrays of valid strategies. *)
Lemma invalid_format_false parsed :
  invalid_format parsed = Normal false ↔
  ∃ items, parsed = JArr items ∧
           Forall (λ s, validateStrategy s = Normal true) items.
Proof.
  split.
  - destruct parsed as [| | | | |items|]; simpl; try done.
    destruct (every validateStrategy items) as [[]|e] eqn:Hev; simpl;
      try done.
    intros _. exists items. split; [done|]. by apply every_true.
  - intros (items & -> & Hall). by apply invalid_format_valid.
Qed.

(** [exportStrategies], step by step. *)
Lemma exportStrategies_steps format w :
  exportStrategies format w =
  match localStorage w !! STRATEGY_KEY with
  | None => (Normal None, w)
  | Some text =>
      if bool_decide (text = "") then (Normal None, w) else
      match JSON_parse text with
      | Throw e => (Throw e, w)
      | Normal parsed =>
          match invalid_format parsed with
          | Throw e => (Throw e, w)
          | Normal true =>
              (Throw (mkError "Error" "Invalid strategy format detected"), w)
          | Normal false =>
              if bool_decide (format = "shorthand") then
                match toShorthand parsed with
                | Throw e => (Throw e, w)
                | Normal short =>
                    (Normal (Some (JSON_stringify short)),
                     downloaded w (JSON_stringify short)
                       (exportFileName format w))
                end
              else (Normal (Some text),
                    downloaded w text (exportFileName format w))
          end
      end
  end.
Proof.
  unfold exportStrategies. rewrite try_catch_rethrow.
  unfold mbind, JS_bind, getItem, lift, throw.
  destruct (localStorage w !! STRATEGY_KEY) as [text|]; simpl; [|done].
  case_bool_decide; [done|].
  destruct (JSON_parse text) as [parsed|e]; [|done].
  destruct (invalid_format parsed) as [[]|e]; try done.
  case_bool_decide; [|done].
  by destruct (toShorthand parsed).
Qed.

(** [getStrategies], step by step. *)
Lemma getStrategies_steps format w :
  getStrategies format w =
  match localStorage w !! STRATEGY_KEY with
  | None => (Normal None, w)
  | Some text =>
      if bool_decide (text = "") then (Normal None, w) else
      match JSON_parse text with
      | Throw e => (Throw e, w)
      | Normal parsed =>
          match invalid_format parsed with
          | Throw e => (Throw e, w)
          | Normal true =>
              (Throw (mkError "Error"
                 "Invalid strategy format detected in localStorage, check you are on the right website"),
               w)
          | Normal false =>
              if bool_decide (format = "shorthand") then
                match toShorthand parsed with
                | Throw e => (Throw e, w)
                | Normal short => (Normal (Some short), w)
                end
              else (Normal (Some parsed), w)
          end
      end
  end.
Proof.
  unfold getStrategies. rewrite try_catch_rethrow.
  unfold mbind, JS_bind, getItem, lift, throw.
  destruct (localStorage w !! STRATEGY_KEY) as [text|]; simpl; [|done].
  case_bool_decide; [done|].
  destruct (JSON_parse text) as [parsed|e]; [|done].
  destruct (invalid_format parsed) as [[]|e]; try done.
  case_bool_decide; [|done].
  by destruct (toShorthand parsed).
Qed.

(** The decoding step of [importStrategies]. *)
Definition decoded (format : string) (parsed : JValue) : Completion JValue :=
  if bool_decide (format = "shorthand") then fromShorthand parsed
  else Normal parsed.

(** The [onload] handler, step by step. *)
Lemma importStrategies_steps fileInput format w file text :
  files fileInput !! 0%nat = Some file →
  readAsText file = Loaded text →
  importStrategies fileInput format w =
  match JSON_parse text ≫= decoded format with
  | Throw e =>
      (Rejected (mkError "Error" ("Invalid strategy file: " +:+ message e)), w)
  | Normal content =>
      match invalid_format content with
      | Throw e =>
          (Rejected (mkError "Error"
             ("Invalid strategy file: " +:+ message e)), w)
      | Normal true =>
          (Rejected (mkError "Error"
             "Invalid strategy file: Invalid strategy format"), w)
      | Normal false =>
          (Resolved content, stored w (JSON_stringify content))
      end
  end.
Proof.
  intros Hfile Hread. unfold importStrategies. rewrite Hfile, Hread.
  unfold onload_try, decoded, mbind, JS_bind, Completion_bind, lift, throw.
  destruct (JSON_parse text) as [parsed|e]; [|done].
  case_bool_decide.
  - destruct (fromShorthand parsed) as [content|e]; [|done].
    by destruct (invalid_format content) as [[]|e].
  - simpl. by destruct (invalid_format parsed) as [[]|e].
Qed.

End ManagerMore.

(** ** The download's file name *)

(** [split_head] returns the text before the first separator. *)
Lemma split_head_before (sep : Ascii.ascii) (before after : string) :
  Forall (λ c, c ≠ sep) (String.list_ascii_of_string before) →
  split_head sep (before +:+ String sep after) = before.
Proof.
  induction before as [|c before IH]; simpl; intros Hno.
  - by rewrite bool_decide_eq_true_2.
  - apply Forall_cons in Hno as [Hc Hno].
    rewrite bool_decide_eq_false_2 by done. by rewrite IH.
Qed.

Section ExportExtras.
Context `{Engine} `{StrategyConverter}.

(** The world after [exportStrategies], from what it returned. *)
Lemma exportStrategies_download_world format w :
  snd (exportStrategies format w) =
  match fst (exportStrategies format w) with
  | Normal (Some text) => downloaded w text (exportFileName format w)
  | _ => w
  end.
Proof.
  rewrite exportStrategies_steps.
  destruct (localStorage w !! STRATEGY_KEY) as [text|]; [|done].
  case_bool_decide; [done|].
  destruct (JSON_parse text) as [parsed|e]; [|done].
  destruct (invalid_format parsed) as [[]|e]; try done.
  case_bool_decide; [|done].
  by destruct (toShorthand parsed).
Qed.

(** X7: whenever [exportStrategies] returns a text, it has triggered exactly
    one more download, of that very text, typed [application/json] and named
    after the format and the clock; whenever it returns [null] or throws, the
    world is as before (no download). *)
Theorem exportStrategies_download_iff_text format w :
  snd (exportStrategies format w) =
  match fst (exportStrategies format w) with
  | Normal (Some text) =>
      mkWorld (localStorage w)
        (downloads w ++
         [mkDownload text "application/json"
            ("strategies_" +:+ format +:+ "_"
             +:+ split_head letter_T (isoNow w) +:+ ".json")])
        (isoNow w)
  | _ => w
  end.
Proof.
  rewrite exportStrategies_steps.
  destruct (localStorage w !! STRATEGY_KEY) as [text|]; [|done].
  case_bool_decide; [done|].
  destruct (JSON_parse text) as [parsed|e]; [|done].
  destruct (invalid_format parsed) as [[]|e]; try done.
  case_bool_decide; [|done].
  by destruct (toShorthand parsed).
Qed.

(** X8: when the clock's ISO timestamp is a date, the letter T and a time,
    the file offered by a successful export is named
    [strategies_<format>_<date>.json]. *)
Theorem exportStrategies_file_name format w text date time :
  fst (exportStrategies format w) = Normal (Some text) →
  isoNow w = date +:+ String letter_T time →
  Forall (λ c, c ≠ letter_T) (String.list_ascii_of_string date) →
  downloads (snd (exportStrategies format w)) =
    (downloads w ++
     [mkDownload text "application/json"
        ("strategies_" +:+ format +:+ "_" +:+ date +:+ ".json")])%list.
Proof.
  intros Hres Hnow Hdate.
  rewrite exportStrategies_download_world, Hres.
  unfold downloaded, exportFileName. simpl.
  by rewrite Hnow, split_head_before.
Qed.



(** X11: a stored text that is not JSON makes [exportStrategies] and
    [getStrategies] throw the parser's own error, unchanged, and leave the
    world as it was. *)
Theorem stored_text_not_json format w saved e :
  localStorage w !! STRATEGY_KEY = Some saved → saved ≠ "" →
  JSON_parse saved = Throw e →
  exportStrategies format w = (Throw e, w) ∧
  getStrategies format w = (Throw e, w).
Proof.
  intros Hsaved Hne Hparse.
  rewrite exportStrategies_steps, getStrategies_steps, Hsaved.
  by rewrite bool_decide_eq_false_2, Hparse.
Qed.

(** X12: a stored text that parses to something other than an array, or to
    an array with an element [validateStrategy] rejects after valid ones,
    makes [exportStrategies] throw "Invalid strategy format detected" and
    [getStrategies] throw its longer message; nothing is downloaded and the
    world is as it was. *)
Theorem stored_content_invalid format w saved parsed :
  localStorage w !! STRATEGY_KEY = Some saved →
  JSON_parse saved = Normal parsed →
  isArray parsed = false
  ∨ (∃ pre s rest,
       parsed = JArr (pre ++ s :: rest) ∧
       Forall (λ s, validateStrategy s = Normal true) pre ∧
       validateStrategy s = Normal false) →
  exportStrategies format w =
    (Throw (mkError "Error" "Invalid strategy format detected"), w) ∧
  getStrategies format w =
    (Throw (mkError "Error"
       "Invalid strategy format detected in localStorage, check you are on the right website"),
     w).
Proof.
  intros Hsaved Hparse Hbad.
  assert (invalid_format parsed = Normal true) as Hinv.
  { destruct Hbad as [Harr|(pre & s & rest & -> & Hpre & Hs)].
    - by destruct parsed.
    - simpl.
      assert (every validateStrategy (pre ++ s :: rest) = Normal false) as ->
        by (apply every_false; by exists pre, s, rest).
      done. }
  rewrite exportStrategies_steps, getStrategies_steps, Hsaved.
  rewrite (bool_decide_eq_false_2 (saved = "")).
  2:{ intros ->. destruct JSON_parse_empty as [e He]. congruence. }
  by rewrite Hparse, Hinv.
Qed.

(** X13: [getStrategies] returns strategies exactly when the stored text
    parses to an array of valid strategies; it returns that array, or, for
    the format "shorthand", what the codec makes of it. *)
Theorem getStrategies_value_iff format w value :
  fst (getStrategies format w) = Normal (Some value) ↔
  ∃ saved items,
    localStorage w !! STRATEGY_KEY = Some saved ∧
    JSON_parse saved = Normal (JArr items) ∧
    Forall (λ s, validateStrategy s = Normal true) items ∧
    (if bool_decide (format = "shorthand")
     then toShorthand (JArr items) = Normal value
     else value = JArr items).
Proof.
  rewrite getStrategies_steps. split.
  - destruct (localStorage w !! STRATEGY_KEY) as [saved|]; [|done].
    case_bool_decide as Hempty; [done|].
    destruct (JSON_parse saved) as [parsed|e] eqn:Hparse; [|done].
    destruct (invalid_format parsed) as [[]|e] eqn:Hinv; try done.
    apply invalid_format_false in Hinv as (items & -> & Hvalid).
    intros Hres. exists saved, items. repeat (split; [done|]).
    case_bool_decide.
    + destruct (toShorthand (JArr items)) as [short|e]; [|done].
      simpl in Hres. congruence.
    + simpl in Hres. congruence.
  - intros (saved & items & -> & Hparse & Hvalid & Hvalue).
    rewrite (bool_decide_eq_false_2 (saved = "")).
    2:{ intros ->. destruct JSON_parse_empty as [e He]. congruence. }
    rewrite Hparse, (invalid_format_valid _ Hvalid).
    case_bool_decide.
    + by rewrite Hvalue.
    + by subst value.
Qed.

End ExportExtras.

Section ImportExtras.
Context `{Engine} `{StrategyConverter}.

(** X14: without a file [importStrategies] rejects with "No file selected";
    when reading the first file fails it rejects with "Failed to read file"
    (not wrapped as an invalid strategy file).  Either way the world is as it
    was. *)
Theorem importStrategies_no_file_or_read_error fileInput format w :
  (files fileInput = [] →
   importStrategies fileInput format w =
     (Rejected (mkError "Error" "No file selected"), w))
  ∧
  (∀ file, files fileInput !! 0%nat = Some file →
     readAsText file = ReadError →
     importStrategies fileInput format w =
       (Rejected (mkError "Error" "Failed to read file"), w)).
Proof.
  split.
  - intros Hnone. unfold importStrategies. by rewrite Hnone.
  - intros file Hfile Hread. unfold importStrategies.
    by rewrite Hfile, Hread.
Qed.

(** X15: with the format "shorthand" the parsed content goes through the
    codec before it is validated, and what is stored and resolved with is
    the decoded array, not the content of the file. *)
Theorem importStrategies_shorthand_stores_decoded
    fileInput w file text parsed items :
  files fileInput !! 0%nat = Some file →
  readAsText file = Loaded text →
  JSON_parse text = Normal parsed →
  fromShorthand parsed = Normal (JArr items) →
  Forall (λ s, validateStrategy s = Normal true) items →
  importStrategies fileInput "shorthand" w =
    (Resolved (JArr items),
     mkWorld (<[STRATEGY_KEY := JSON_stringify (JArr items)]> (localStorage w))
       (downloads w) (isoNow w)).
Proof.
  intros Hfile Hread Hparse Hdec Hvalid.
  rewrite (importStrategies_steps _ _ _ _ _ Hfile Hread), Hparse. simpl.
  unfold decoded. simpl. rewrite Hdec.
  by rewrite (invalid_format_valid _ Hvalid).
Qed.

(** What [importStrategies] resolves with. *)
Lemma importStrategies_resolved_valid fileInput format w value :
  fst (importStrategies fileInput format w) = Resolved value →
  (∃ items, value = JArr items ∧
            Forall (λ s, validateStrategy s = Normal true) items) ∧
  snd (importStrategies fileInput format w) =
    stored w (JSON_stringify value).
Proof.
  intros Hres. split; [|by apply importStrategies_resolved].
  destruct (files fileInput !! 0%nat) as [file|] eqn:Hfile.
  2:{ unfold importStrategies in Hres. by rewrite Hfile in Hres. }
  destruct (readAsText file) as [text|] eqn:Hread.
  2:{ unfold importStrategies in Hres. by rewrite Hfile, Hread in Hres. }
  rewrite (importStrategies_steps _ _ _ _ _ Hfile Hread) in Hres.
  destruct (JSON_parse text ≫= decoded format) as [content|e]; [|done].
  destruct (invalid_format content) as [[]|e] eqn:Hinv; try done.
  injection Hres as <-. by apply invalid_format_false.
Qed.

(** X16: [importStrategies] resolves with, and stores, nothing but an array
    whose elements all pass [validateStrategy]: whenever the promise
    resolves, its value is such an array and the store holds its
    serialization under the key. *)
Theorem importStrategies_resolves_only_valid fileInput format w value :
  fst (importStrategies fileInput format w) = Resolved value →
  (∃ items, value = JArr items ∧
            Forall (λ s, validateStrategy s = Normal true) items) ∧
  localStorage (snd (importStrategies fileInput format w)) !! STRATEGY_KEY
  = Some (JSON_stringify value).
Proof.
  intros Hres.
  destruct (importStrategies_resolved_valid _ _ _ _ Hres) as [Hvalid ->].
  split; [done|]. simpl. by rewrite lookup_insert_eq.
Qed.

(** X17: import, then read back.  When the engine parses the serialization
    of the imported value back to that value, [getStrategies] on the world
    left by a resolved import returns the imported value and
    [exportStrategies] returns its serialization (any format but
    "shorthand"). *)
Theorem import_then_get_and_export fileInput format format' w value :
  fst (importStrategies fileInput format w) = Resolved value →
  JSON_parse (JSON_stringify value) = Normal value →
  format' ≠ "shorthand" →
  fst (getStrategies format' (snd (importStrategies fileInput format w)))
  = Normal (Some value) ∧
  fst (exportStrategies format' (snd (importStrategies fileInput format w)))
  = Normal (Some (JSON_stringify value)).
Proof.
  intros Hres Hround Hformat.
  destruct (importStrategies_resolved_valid _ _ _ _ Hres)
    as [(items & -> & Hvalid) ->].
  rewrite getStrategies_steps, exportStrategies_steps. simpl.
  rewrite lookup_insert_eq.
  rewrite (bool_decide_eq_false_2 (JSON_stringify (JArr items) = "")).
  2:{ intros Hempty. rewrite Hempty in Hround.
      destruct JSON_parse_empty as [e He]. congruence. }
  rewrite Hround, (invalid_format_valid _ Hvalid).
  by rewrite (bool_decide_eq_false_2 (format' = "shorthand")).
Qed.

(** X18: export, then import.  The text returned by [exportStrategies] (any
    format but "shorthand") is accepted by [importStrategies] (any format
    but "shorthand") in any world: the promise resolves with the array the
    text parses to, which is the array of the strategies that were stored. *)
Theorem export_then_import format format' w text fileInput file w' :
  fst (exportStrategies format w) = Normal (Some text) →
  format ≠ "shorthand" → format' ≠ "shorthand" →
  files fileInput !! 0%nat = Some file →
  readAsText file = Loaded text →
  ∃ items,
    localStorage w !! STRATEGY_KEY = Some text ∧
    JSON_parse text = Normal (JArr items) ∧
    importStrategies fileInput format' w' =
      (Resolved (JArr items),
       mkWorld (<[STRATEGY_KEY := JSON_stringify (JArr items)]>
                  (localStorage w'))
         (downloads w') (isoNow w')).
Proof.
  intros Hres Hformat Hformat' Hfile Hread.
  rewrite exportStrategies_steps in Hres.
  destruct (localStorage w !! STRATEGY_KEY) as [saved|]; [|done].
  case_bool_decide as Hempty; [done|].
  destruct (JSON_parse saved) as [parsed|e] eqn:Hparse; [|done].
  destruct (invalid_format parsed) as [[]|e] eqn:Hinv; try done.
  rewrite (bool_decide_eq_false_2 (format = "shorthand")) in Hres by done.
  injection Hres as ->.
  apply invalid_format_false in Hinv as (items & -> & Hvalid).
  exists items. split; [done|]. split; [done|].
  rewrite (importStrategies_steps _ _ _ _ _ Hfile Hread), Hparse. simpl.
  unfold decoded.
  rewrite (bool_decide_eq_false_2 (format' = "shorthand")) by done.
  by rewrite (invalid_format_valid _ Hvalid).
Qed.

End ImportExtras.

Section CodecIndependence.
Context `{Engine} (codec1 codec2 : StrategyConverter).

(** X19: the codec is consulted for the format "shorthand" only: with any
    other format the three operations behave the same whatever the codec is
    (also when, as in this script, none is defined). *)
Theorem codec_only_for_shorthand format :
  format ≠ "shorthand" →
  (∀ w, @exportStrategies _ codec1 format w
        = @exportStrategies _ codec2 format w) ∧
  (∀ w, @getStrategies _ codec1 format w
        = @getStrategies _ codec2 format w) ∧
  (∀ fileInput w, @importStrategies _ codec1 fileInput format w
                  = @importStrategies _ codec2 fileInput format w).
Proof.
  intros Hformat. split; [|split].
  - intros w. rewrite !exportStrategies_steps.
    by rewrite (bool_decide_eq_false_2 (format = "shorthand")).
  - intros w. rewrite !getStrategies_steps.
    by rewrite (bool_decide_eq_false_2 (format = "shorthand")).
  - intros fileInput w. unfold importStrategies, onload_try.
    by rewrite (bool_decide_eq_false_2 (format = "shorthand")).
Qed.

End CodecIndependence.

(** ** The further properties on concrete inputs *)

Section MoreWitnesses.
Import Sample.

Lemma validateCondition_true_iff_witness :
  validateCondition condition = Normal true.
Proof.
  apply (proj2 (@validateCondition_true_iff engine condition)).
  exists "every", (JNum zero), "lose", "profit".
  split; [reflexivity|].
  split; [apply (bool_decide_unpack ("every" ∈ validConditionTypes)); exact I|].
  split; [reflexivity|]. split; [reflexivity|]. split; [reflexivity|].
  split; [apply (bool_decide_unpack ("lose" ∈ validBetTypes)); exact I|].
  split; [reflexivity|].
  apply (bool_decide_unpack ("profit" ∈ validProfitTypes)); exact I.
Defined.

Lemma validateBlock_true_iff_witness :
  validateBlock block = Normal true.
Proof.
  apply (proj2 (@validateBlock_true_iff engine block)).
  exists (JStr "b1"), "bets", condition, action.
  split; [reflexivity|]. split; [reflexivity|]. split; [reflexivity|].
  split; [left; reflexivity|]. split; [reflexivity|].
  split; [reflexivity|]. split; reflexivity.
Defined.

Lemma validateStrategy_first_rejected_block_witness :
  validateStrategy (strategy [block; block_id0; JNull]) = Normal false.
Proof.
  apply (@validateStrategy_first_rejected_block engine
           (strategy [block; block_id0; JNull]) [block] block_id0 [JNull]).
  - reflexivity.
  - apply Forall_cons. split; [reflexivity|apply Forall_nil_2].
  - reflexivity.
Defined.

Lemma validateStrategy_not_object_witness :
  validateStrategy (JArr [strategy []]) = Normal false.
Proof.
  apply (@validateStrategy_not_object engine (JArr [strategy []])).
  intros fields. discriminate.
Defined.

Lemma exportStrategies_file_name_witness :
  downloads (snd (exportStrategies "original" (world store_x))) =
    [mkDownload text_x "application/json"
       "strategies_original_2025-01-31.json"].
Proof.
  apply (@exportStrategies_file_name engine converter "original"
           (world store_x) text_x "2025-01-31" "10:20:30.000Z").
  - reflexivity.
  - reflexivity.
  - apply (bool_decide_unpack
             (Forall (λ c, c ≠ letter_T)
                (String.list_ascii_of_string "2025-01-31"))).
    exact I.
Defined.

Lemma stored_text_not_json_witness :
  exportStrategies "original" (world (<[STRATEGY_KEY := "not json"]> ∅)) =
    (Throw (mkError "SyntaxError" "Unexpected token"),
     world (<[STRATEGY_KEY := "not json"]> ∅)) ∧
  getStrategies "original" (world (<[STRATEGY_KEY := "not json"]> ∅)) =
    (Throw (mkError "SyntaxError" "Unexpected token"),
     world (<[STRATEGY_KEY := "not json"]> ∅)).
Proof.
  apply (@stored_text_not_json engine converter "original"
           (world (<[STRATEGY_KEY := "not json"]> ∅)) "not json"
           (mkError "SyntaxError" "Unexpected token")).
  - reflexivity.
  - discriminate.
  - reflexivity.
Defined.

Lemma stored_content_invalid_witness :
  exportStrategies "original" (world (<[STRATEGY_KEY := "{}"]> ∅)) =
    (Throw (mkError "Error" "Invalid strategy format detected"),
     world (<[STRATEGY_KEY := "{}"]> ∅)) ∧
  getStrategies "original" (world (<[STRATEGY_KEY := "{}"]> ∅)) =
    (Throw (mkError "Error"
       "Invalid strategy format detected in localStorage, check you are on the right website"),
     world (<[STRATEGY_KEY := "{}"]> ∅)).
Proof.
  apply (@stored_content_invalid engine converter "original"
           (world (<[STRATEGY_KEY := "{}"]> ∅)) "{}" (JObj ∅)).
  - reflexivity.
  - reflexivity.
  - left. reflexivity.
Defined.

Lemma importStrategies_no_file_or_read_error_witness :
  importStrategies (mkFileInput []) "original" (world store_x) =
    (Rejected (mkError "Error" "No file selected"), world store_x) ∧
  importStrategies (mkFileInput [mkFile "strategies.json" ReadError])
    "original" (world store_x) =
    (Rejected (mkError "Error" "Failed to read file"), world store_x).
Proof.
  split.
  - apply (proj1 (@importStrategies_no_file_or_read_error engine converter
                    (mkFileInput []) "original" (world store_x))).
    reflexivity.
  - apply (proj2 (@importStrategies_no_file_or_read_error engine converter
                    (mkFileInput [mkFile "strategies.json" ReadError])
                    "original" (world store_x))
             (mkFile "strategies.json" ReadError)).
    + reflexivity.
    + reflexivity.
Defined.

Lemma importStrategies_shorthand_stores_decoded_witness :
  @importStrategies engine SampleIdentity.codec (fileInput text_x)
    "shorthand" (world ∅) =
    (Resolved (JArr [strategy []]), world store_x).
Proof.
  apply (@importStrategies_shorthand_stores_decoded engine
           SampleIdentity.codec (fileInput text_x) (world ∅)
           (mkFile "strategies.json" (Loaded text_x)) text_x
           (JArr [strategy []]) [strategy []]).
  - reflexivity.
  - reflexivity.
  - reflexivity.
  - reflexivity.
  - apply Forall_cons. split; [reflexivity|apply Forall_nil_2].
Defined.

Lemma importStrategies_resolves_only_valid_witness :
  (∃ items, JArr [strategy []] = JArr items ∧
            Forall (λ s, validateStrategy s = Normal true) items) ∧
  localStorage (snd (importStrategies (fileInput text_x) "original"
                       (world ∅))) !! STRATEGY_KEY
  = Some (JSON_stringify (JArr [strategy []])).
Proof.
  apply (@importStrategies_resolves_only_valid engine converter
           (fileInput text_x) "original" (world ∅) (JArr [strategy []])).
  reflexivity.
Defined.

Lemma import_then_get_and_export_witness :
  fst (getStrategies "original"
         (snd (importStrategies (fileInput text_x) "original" (world ∅))))
  = Normal (Some (JArr [strategy []])) ∧
  fst (exportStrategies "original"
         (snd (importStrategies (fileInput text_x) "original" (world ∅))))
  = Normal (Some text_x).
Proof.
  apply (@import_then_get_and_export engine converter
           (fileInput text_x) "original" "original" (world ∅)
           (JArr [strategy []])).
  - reflexivity.
  - reflexivity.
  - discriminate.
Defined.

Lemma export_then_import_witness :
  ∃ items,
    localStorage (world store_x) !! STRATEGY_KEY = Some text_x ∧
    JSON_parse text_x = Normal (JArr items) ∧
    importStrategies (fileInput text_x) "original" (world ∅) =
      (Resolved (JArr items),
       mkWorld (<[STRATEGY_KEY := JSON_stringify (JArr items)]>
                  (localStorage (world ∅)))
         (downloads (world ∅)) (isoNow (world ∅))).
Proof.
  apply (@export_then_import engine converter "original" "original"
           (world store_x) text_x (fileInput text_x)
           (mkFile "strategies.json" (Loaded text_x)) (world ∅)).
  - reflexivity.
  - discriminate.
  - discriminate.
  - reflexivity.
  - reflexivity.
Defined.

Lemma codec_only_for_shorthand_witness :
  @importStrategies engine converter (fileInput text_x) "original" (world ∅)
  = @importStrategies engine SampleIdentity.codec (fileInput text_x)
      "original" (world ∅).
Proof.
  apply (@codec_only_for_shorthand engine converter SampleIdentity.codec
           "original").
  discriminate.
Defined.

End MoreWitnesses.
